(** * Unstructured-to-structured conversion stage

    A shallow embedding of [sources/unstructured_data/__init__.py]: the
    resource configurator [unstructured_to_structured_resource] and the
    per-item generator [convert_data], together with the properties of the
    stage's specification.

    Python dictionaries are finite maps ([gmap]); the data item handed to
    [convert_data] is a mutable object, so it lives in a heap and is passed by
    location.  Process-wide state (the environment variables, the logger
    output, the records a generator has produced) is threaded explicitly
    through a small state-and-exception monad. *)

From stdpp Require Import gmap strings list fin_maps pretty.

Local Open Scope string_scope.
Local Open Scope list_scope.

(** ** Values, dictionaries, exceptions *)

Definition loc := positive.

(** Values a data item may carry.  [VRef l] is a reference to the dictionary
    object stored at [l]: assigning a dict to a key stores the object itself,
    not a copy of it. *)
Inductive value :=
  | VNone
  | VBool (b : bool)
  | VInt (z : Z)
  | VStr (s : string)
  | VRef (l : loc).

#[global] Instance value_eq_dec : EqDecision value.
Proof. solve_decision. Defined.

Abbreviation dict := (gmap string value).
Abbreviation queries_t := (gmap string string).
Abbreviation environ_t := (gmap string string).

(** Exceptions, by what [except ValueError] can tell apart: [ValueError]
    stands for an instance of [ValueError] itself, [SubValueError cls msg]
    for an instance of a proper subclass [cls] of it (a [UnicodeDecodeError],
    say), [KeyError] for the failure of a subscript, [OtherError cls msg] for
    an instance of any class [cls] that does not derive from [ValueError]. *)
Inductive exn :=
  | ValueError (reason : string)
  | SubValueError (cls msg : string)
  | KeyError (key : string)
  | OtherError (cls msg : string).

#[global] Instance exn_eq_dec : EqDecision exn.
Proof. solve_decision. Defined.

(** [isinstance(e, ValueError)] *)
Definition is_ValueError (e : exn) : bool :=
  match e with ValueError _ | SubValueError _ _ => true | _ => false end.

(** Modelled from the spec: the helper that reports an unsupported format is
    not part of this module; by the spec the engine may fail with a "format
    not supported" failure, identified by file path and reason, and the
    module catches it as [ValueError]: it is taken to be an instance of
    [ValueError] itself, carrying the reason. *)
Definition is_unsupported_format (e : exn) : bool :=
  match e with ValueError _ => true | _ => false end.

(** ** Logger messages

    An f-string is kept as the sequence of its literal pieces and of the
    objects it interpolates. *)
Inductive fpart :=
  | Lit (s : string)
  | Fmt (v : value)
  | FmtExn (e : exn).

Inductive level := INFO | WARNING.

#[global] Instance level_eq_dec : EqDecision level.
Proof. solve_decision. Defined.

Definition str_exn (e : exn) : string :=
  match e with
  | ValueError r => r
  | SubValueError _ m => m
  | KeyError k => "'" +:+ k +:+ "'"
  | OtherError _ m => m
  end.

(** [str] of a scalar; a referenced dictionary is not rendered here. *)
Definition str_value (v : value) : option string :=
  match v with
  | VNone => Some "None"
  | VBool true => Some "True"
  | VBool false => Some "False"
  | VInt z => Some (pretty z)
  | VStr s => Some s
  | VRef _ => None
  end.

Fixpoint render (m : list fpart) : option string :=
  match m with
  | [] => Some ""
  | Lit s :: m' => String.append s <$> render m'
  | Fmt v :: m' =>
      match str_value v with
      | Some s => String.append s <$> render m'
      | None => None
      end
  | FmtExn e :: m' => String.append (str_exn e) <$> render m'
  end.

(** Whether a character occurs in a string. *)
Fixpoint contains_char (c : Ascii.ascii) (s : string) : bool :=
  match s with
  | EmptyString => false
  | String c' s' => bool_decide (c' = c) || contains_char c s'
  end.

Definition contains_nul (s : string) : bool := contains_char Ascii.zero s.

(** The character [=], code 61. *)
Definition equals_sign : Ascii.ascii := Ascii.ascii_of_nat 61.

(** ** The collaborators imported from [.helpers] and [.settings]

    [vectorstore_mapping], the two extraction functions and
    [INVOICE_QUERIES] are imported by the module and not defined in it; they
    are taken as an interface.  An extraction function is given the file
    path, the queries and the backend handle; its outcome may also depend on
    the process environment (where it finds its credential), and is either an
    exception or the dictionary of extracted fields. *)
Class Helpers := {
  Backend : Type;
  vectorstore_mapping : gmap string Backend;
  process_file_to_structured :
    value → queries_t → Backend → environ_t → exn + dict;
  aprocess_file_to_structured :
    value → queries_t → Backend → environ_t → exn + dict;
  INVOICE_QUERIES : queries_t
}.

(** Outcome of a computation that may raise. *)
Inductive result (A : Type) :=
  | Ok (a : A)
  | Raise (e : exn).
Arguments Ok {A} a.
Arguments Raise {A} e.

Section Stage.
Context `{HLP : Helpers}.

(** ** Program state *)

(** One call of the extraction engine, as observed from this module. *)
Record call := Call {
  call_async : bool;
  call_file : value;
  call_queries : queries_t;
  call_backend : Backend;
  call_environ : environ_t
}.

Record state := State {
  heap : gmap loc dict;               (* the dictionary objects *)
  environ : environ_t;                (* os.environ *)
  log : list (level * list fpart);    (* what the logger was given, oldest first *)
  calls : list call;                  (* extraction calls made, oldest first *)
  yielded : list dict                 (* records produced by the generator *)
}.

Definition set_heap (h : gmap loc dict) (σ : state) : state :=
  State h (environ σ) (log σ) (calls σ) (yielded σ).
Definition set_environ (e : environ_t) (σ : state) : state :=
  State (heap σ) e (log σ) (calls σ) (yielded σ).
Definition add_log (x : level * list fpart) (σ : state) : state :=
  State (heap σ) (environ σ) (log σ ++ [x]) (calls σ) (yielded σ).
Definition add_call (c : call) (σ : state) : state :=
  State (heap σ) (environ σ) (log σ) (calls σ ++ [c]) (yielded σ).
Definition add_yield (r : dict) (σ : state) : state :=
  State (heap σ) (environ σ) (log σ) (calls σ) (yielded σ ++ [r]).

(** ** The monad: state and exceptions *)

Definition M (A : Type) : Type := state → result A * state.

#[global] Instance M_ret : MRet M := λ A a σ, (Ok a, σ).
#[global] Instance M_bind : MBind M := λ A B f m σ,
  match m σ with
  | (Ok a, σ') => f a σ'
  | (Raise e, σ') => (Raise e, σ')
  end.

Definition raise {A} (e : exn) : M A := λ σ, (Raise e, σ).

(** [try: body except ValueError as error: handler error] *)
Definition try_except_ValueError {A} (body : M A) (handler : exn → M A) : M A :=
  λ σ,
    match body σ with
    | (Raise e, σ') =>
        if is_ValueError e then handler e σ' else (Raise e, σ')
    | r => r
    end.

(** ** Primitive operations *)

(** The dictionary object at [l]. *)
Definition obj (σ : state) (l : loc) : dict := heap σ !!! l.

(** [d.get(k)] *)
Definition dict_get (l : loc) (k : string) : M value :=
  λ σ, (Ok (default VNone (obj σ l !! k)), σ).

(** [d[k]] *)
Definition dict_getitem (l : loc) (k : string) : M value :=
  λ σ, match obj σ l !! k with
       | Some v => (Ok v, σ)
       | None => (Raise (KeyError k), σ)
       end.

(** [d.pop(k)] *)
Definition dict_pop (l : loc) (k : string) : M value :=
  λ σ, match obj σ l !! k with
       | Some v => (Ok v, set_heap (<[l := delete k (obj σ l)]> (heap σ)) σ)
       | None => (Raise (KeyError k), σ)
       end.

(** [vectorstore_mapping[name]] *)
Definition mapping_getitem (name : string) : M Backend :=
  λ σ, match vectorstore_mapping !! name with
       | Some b => (Ok b, σ)
       | None => (Raise (KeyError name), σ)
       end.

Definition logger_info (msg : list fpart) : M unit :=
  λ σ, (Ok (), add_log (INFO, msg) σ).
Definition logger_warning (msg : list fpart) : M unit :=
  λ σ, (Ok (), add_log (WARNING, msg) σ).

(** [os.environ[k] = v].  The name and the value go through [putenv], which
    refuses a NUL character in either, and a name that is empty or contains
    an equals sign; nothing is stored then. *)
Definition environ_set (k v : string) : M unit :=
  λ σ,
    if contains_nul k || contains_nul v then
      (Raise (ValueError "embedded null byte"), σ)
    else if bool_decide (k = "") || contains_char equals_sign k then
      (Raise (ValueError "illegal environment variable name"), σ)
    else (Ok (), set_environ (<[k := v]> (environ σ)) σ).

(** [yield r] *)
Definition yield (r : dict) : M unit :=
  λ σ, (Ok (), add_yield r σ).

(** Running an extraction function: the call is recorded, and its outcome is
    returned or raised. *)
Definition run_engine (async : bool)
    (f : value → queries_t → Backend → environ_t → exn + dict)
    (file_path : value) (queries : queries_t) (backend : Backend) : M dict :=
  λ σ,
    let σ' := add_call (Call async file_path queries backend (environ σ)) σ in
    match f file_path queries backend (environ σ) with
    | inr fields => (Ok fields, σ')
    | inl e => (Raise e, σ')
    end.

(** The synchronous call runs the engine at once. *)
Definition call_process_file_to_structured
    (file_path : value) (queries : queries_t) (backend : Backend) : M dict :=
  run_engine false process_file_to_structured file_path queries backend.

(** The asynchronous call only builds a coroutine, a suspended computation;
    [asyncio.run] drives it to completion and hands back its outcome.  (No
    event loop is taken to be running already in the calling thread.) *)
Definition coroutine (A : Type) : Type := M A.

Definition call_aprocess_file_to_structured
    (file_path : value) (queries : queries_t) (backend : Backend)
    : coroutine dict :=
  run_engine true aprocess_file_to_structured file_path queries backend.

Definition asyncio_run {A} (c : coroutine A) : M A := c.

(** ** [convert_data] *)

Definition convert_data (unstructured_item : loc) (queries : queries_t)
    (vectorstore : string) (run_async : bool) : M unit :=
  v ← dict_get unstructured_item "file_path";
  if decide (v = VNone) then mret ()
  else
    try_except_ValueError
      (response ←
         (if run_async then
            logger_info [Lit "Run conversion asynchronously."];;
            file_path ← dict_getitem unstructured_item "file_path";
            backend ← mapping_getitem vectorstore;
            asyncio_run
              (call_aprocess_file_to_structured file_path queries backend)
          else
            file_path ← dict_getitem unstructured_item "file_path";
            backend ← mapping_getitem vectorstore;
            call_process_file_to_structured file_path queries backend);
       file_path ← dict_pop unstructured_item "file_path";
       let response := <["file_path" := file_path]> response in
       let response := <["metadata" := VRef unstructured_item]> response in
       yield response)
      (λ error,
         file_path ← dict_getitem unstructured_item "file_path";
         logger_warning
           [Lit "File "; Fmt file_path; Lit " has unsupported format: ";
            FmtExn error]).

(** ** [unstructured_to_structured_resource] *)

(** What [dlt.transformer] is given: the hints, and the arguments bound to
    [convert_data] for the lifetime of the stage. *)
Record DltResource := {
  name : string;
  write_disposition : string;
  merge_key : string;
  primary_key : string;
  bound_queries : queries_t;
  bound_vectorstore : string;
  bound_run_async : bool
}.

(** Truth value of a string: the empty string is false. *)
Definition truthy (s : string) : bool := negb (bool_decide (s = "")).

(** The body of the resource function.  A [queries] argument left out and
    not found in the configuration is [None].  The API key is a string: it is
    declared [str], and when no key is passed or found the decorator raises
    before the body is entered. *)
Definition unstructured_to_structured_resource
    (queries : option queries_t) (openai_api_key : string)
    (vectorstore : string) (table_name : string) (run_async : bool)
    : M DltResource :=
  (if truthy openai_api_key
   then environ_set "OPENAI_API_KEY" openai_api_key
   else mret ());;
  let queries :=
    match queries with
    | None => INVOICE_QUERIES
    | Some q => q
    end in
  mret {| name := table_name;
          write_disposition := "merge";
          merge_key := "metadata__data_hash";
          primary_key := "metadata__data_hash";
          bound_queries := queries;
          bound_vectorstore := vectorstore;
          bound_run_async := run_async |}.

(** The transformer applied to one item. *)
Definition transform (r : DltResource) (item : loc) : M unit :=
  convert_data item (bound_queries r) (bound_vectorstore r) (bound_run_async r).

(** The stage fed with the upstream items, one at a time and in order; an
    exception ends the run. *)
Fixpoint run_items (r : DltResource) (items : list loc) : M unit :=
  match items with
  | [] => mret ()
  | item :: rest => transform r item;; run_items r rest
  end.

(** ** One conversion, case by case *)

(** The extraction function selected by [run_async]. *)
Definition engine (run_async : bool)
    : value → queries_t → Backend → environ_t → exn + dict :=
  if run_async then aprocess_file_to_structured else process_file_to_structured.

(** The state once the branch on [run_async] has been entered. *)
Definition entered (run_async : bool) (σ : state) : state :=
  if run_async then add_log (INFO, [Lit "Run conversion asynchronously."]) σ
  else σ.

(** The state once the extraction call has been made. *)
Definition extracted (run_async : bool) (fp : value) (q : queries_t)
    (b : Backend) (σ : state) : state :=
  add_call (Call run_async fp q b (environ σ)) (entered run_async σ).

Definition unsupported_warning (fp : value) (e : exn) : level * list fpart :=
  (WARNING,
   [Lit "File "; Fmt fp; Lit " has unsupported format: "; FmtExn e]).

Definition structured_record (l : loc) (fp : value) (fields : dict) : dict :=
  <["metadata" := VRef l]> (<["file_path" := fp]> fields).

(** The five ways one conversion can go, with the outcome and the state it
    ends in. *)
Inductive conversion (σ : state) (l : loc) (q : queries_t) (vs : string)
    (a : bool) : result unit → state → Prop :=
  | conv_no_path :
      default VNone (obj σ l !! "file_path") = VNone →
      conversion σ l q vs a (Ok ()) σ
  | conv_unknown fp :
      obj σ l !! "file_path" = Some fp → fp ≠ VNone →
      vectorstore_mapping !! vs = None →
      conversion σ l q vs a (Raise (KeyError vs)) (entered a σ)
  | conv_emitted fp b fields :
      obj σ l !! "file_path" = Some fp → fp ≠ VNone →
      vectorstore_mapping !! vs = Some b →
      engine a fp q b (environ σ) = inr fields →
      conversion σ l q vs a (Ok ())
        (add_yield (structured_record l fp fields)
           (set_heap (<[l := delete "file_path" (obj σ l)]> (heap σ))
              (extracted a fp q b σ)))
  | conv_unsupported fp b e :
      obj σ l !! "file_path" = Some fp → fp ≠ VNone →
      vectorstore_mapping !! vs = Some b →
      engine a fp q b (environ σ) = inl e →
      is_ValueError e = true →
      conversion σ l q vs a (Ok ())
        (add_log (unsupported_warning fp e) (extracted a fp q b σ))
  | conv_fatal fp b e :
      obj σ l !! "file_path" = Some fp → fp ≠ VNone →
      vectorstore_mapping !! vs = Some b →
      engine a fp q b (environ σ) = inl e →
      is_ValueError e = false →
      conversion σ l q vs a (Raise e) (extracted a fp q b σ).

(** The host pipeline stores the field [child] of a nested dictionary
    [parent] in the column [parent__child]. *)
Definition nested_column (parent child : string) : string :=
  parent +:+ "__" +:+ child.

End Stage.

Arguments state : clear implicits.
Arguments call : clear implicits.
Arguments M : clear implicits.
Arguments DltResource : clear implicits.

(** ** A small installation, for running the stage on concrete inputs *)

(** An extraction engine that knows a few files by path: the outcome for a
    known file is looked up, an unknown file cannot be opened.  The
    synchronous and the asynchronous entry points answer alike. *)
Definition table_engine (files : gmap string (exn + dict))
    (file_path : value) (_ : queries_t) (_ : string) (_ : environ_t)
    : exn + dict :=
  match file_path with
  | VStr p => default (inl (OtherError "FileNotFoundError" p)) (files !! p)
  | _ => inl (OtherError "TypeError" "expected str")
  end.

Definition sample_queries : queries_t :=
  {[ "invoice_amount" := "What is the total amount of the invoice?";
     "invoice_number" := "What is the invoice number?" ]}.

Definition table_helpers (files : gmap string (exn + dict)) : Helpers := {|
  Backend := string;
  vectorstore_mapping :=
    {[ "chroma" := "Chroma"; "weaviate" := "Weaviate";
       "elastic_search" := "ElasticVectorSearch" ]};
  process_file_to_structured := table_engine files;
  aprocess_file_to_structured := table_engine files;
  INVOICE_QUERIES := sample_queries
|}.

Definition sample_fields : dict :=
  {[ "invoice_amount" := VStr "120.50"; "invoice_number" := VStr "2023-17" ]}.

Definition sample_files : gmap string (exn + dict) :=
  {[ "invoice.pdf" := inr sample_fields;
     "notes.xyz" := inl (ValueError "Unsupported file type: .xyz");
     "locked.pdf" := inl (OtherError "PermissionError" "locked.pdf") ]}.

Definition sample_helpers : Helpers := table_helpers sample_files.

(** A fresh process holding the given dictionary objects. *)
Definition initial_state (H : Helpers) (objects : list (loc * dict)) : state H :=
  State (list_to_map objects) ∅ [] [] [].

Definition invoice_item : dict :=
  {[ "file_path" := VStr "invoice.pdf"; "data_hash" := VStr "h1";
     "file_name" := VStr "invoice.pdf" ]}.
Definition notes_item : dict :=
  {[ "file_path" := VStr "notes.xyz"; "data_hash" := VStr "h2" ]}.
Definition locked_item : dict :=
  {[ "file_path" := VStr "locked.pdf"; "data_hash" := VStr "h3" ]}.
Definition pathless_item : dict :=
  {[ "data_hash" := VStr "h4" ]}.
Definition none_path_item : dict :=
  {[ "file_path" := VNone; "data_hash" := VStr "h5" ]}.
Definition empty_path_item : dict :=
  {[ "file_path" := VStr ""; "data_hash" := VStr "h6" ]}.

Definition sample_objects : list (loc * dict) :=
  [(1%positive, invoice_item); (2%positive, notes_item);
   (3%positive, locked_item); (4%positive, pathless_item);
   (5%positive, none_path_item); (6%positive, empty_path_item)].

Definition sample_state : state sample_helpers :=
  initial_state sample_helpers sample_objects.

(** The same installation, except for what the engine answers on the empty
    path. *)
Definition empty_path_helpers (outcome : exn + dict) : Helpers :=
  table_helpers (<["" := outcome]> sample_files).


(** An installation whose engine cannot decode the one file it is given. *)
Definition decode_error : exn :=
  SubValueError "UnicodeDecodeError"
    "'utf-8' codec can't decode byte 0xff in position 0: invalid start byte".

Definition garbled_helpers : Helpers :=
  table_helpers {[ "report.txt" := inl decode_error ]}.

Definition garbled_state : state garbled_helpers :=
  initial_state garbled_helpers
    [(1%positive,
      {[ "file_path" := VStr "report.txt"; "data_hash" := VStr "h7" ]})].

(** * Properties *)

Section Properties.
Context `{HLP : Helpers}.

Ltac unfold_conv :=
  unfold convert_data, try_except_ValueError, dict_get, dict_getitem,
    dict_pop, mapping_getitem, asyncio_run, call_process_file_to_structured,
    call_aprocess_file_to_structured, run_engine, logger_info, logger_warning,
    yield, mbind, mret, M_bind, M_ret, engine, extracted, entered in *.

Lemma convert_data_no_path σ l q vs a :
  default VNone (obj σ l !! "file_path") = VNone →
  convert_data l q vs a σ = (Ok (), σ).
Proof.
  intros Hnone. unfold_conv. rewrite Hnone.
  by destruct (decide (VNone = VNone)).
Qed.

Lemma convert_data_unknown σ l q vs a fp :
  obj σ l !! "file_path" = Some fp → fp ≠ VNone →
  vectorstore_mapping !! vs = None →
  convert_data l q vs a σ = (Raise (KeyError vs), entered a σ).
Proof.
  intros Hfp Hne Hvs. unfold_conv. rewrite Hfp. simpl.
  destruct (decide (fp = VNone)) as [|_]; [done|].
  destruct a; simpl; unfold obj in *; simpl; rewrite Hfp, Hvs; done.
Qed.

Lemma convert_data_ok σ l q vs a fp b fields :
  obj σ l !! "file_path" = Some fp → fp ≠ VNone →
  vectorstore_mapping !! vs = Some b →
  engine a fp q b (environ σ) = inr fields →
  convert_data l q vs a σ =
    (Ok (),
     add_yield (structured_record l fp fields)
       (set_heap (<[l := delete "file_path" (obj σ l)]> (heap σ))
          (extracted a fp q b σ))).
Proof.
  intros Hfp Hne Hvs Heng. unfold_conv. rewrite Hfp. simpl.
  destruct (decide (fp = VNone)) as [|_]; [done|].
  destruct a; simpl; unfold obj in *; simpl; rewrite Hfp, Hvs; simpl;
    rewrite Heng; simpl; rewrite Hfp; done.
Qed.

Lemma convert_data_unsupported σ l q vs a fp b e :
  obj σ l !! "file_path" = Some fp → fp ≠ VNone →
  vectorstore_mapping !! vs = Some b →
  engine a fp q b (environ σ) = inl e →
  is_ValueError e = true →
  convert_data l q vs a σ =
    (Ok (), add_log (unsupported_warning fp e) (extracted a fp q b σ)).
Proof.
  intros Hfp Hne Hvs Heng HVE. unfold_conv. rewrite Hfp. simpl.
  destruct (decide (fp = VNone)) as [|_]; [done|].
  destruct a; simpl; unfold obj in *; simpl; rewrite Hfp, Hvs; simpl;
    rewrite Heng; simpl; rewrite HVE, Hfp; done.
Qed.

Lemma convert_data_fatal σ l q vs a fp b e :
  obj σ l !! "file_path" = Some fp → fp ≠ VNone →
  vectorstore_mapping !! vs = Some b →
  engine a fp q b (environ σ) = inl e →
  is_ValueError e = false →
  convert_data l q vs a σ = (Raise e, extracted a fp q b σ).
Proof.
  intros Hfp Hne Hvs Heng HVE. unfold_conv. rewrite Hfp. simpl.
  destruct (decide (fp = VNone)) as [|_]; [done|].
  destruct a; simpl; unfold obj in *; simpl; rewrite Hfp, Hvs; simpl;
    rewrite Heng; simpl; rewrite HVE; done.
Qed.

(** What the two bookkeeping steps leave alone. *)
Lemma entered_frame a (σ : state HLP) :
  heap (entered a σ) = heap σ ∧ environ (entered a σ) = environ σ ∧
  calls (entered a σ) = calls σ ∧ yielded (entered a σ) = yielded σ ∧
  log (entered a σ) =
    log σ ++ (if a then [(INFO, [Lit "Run conversion asynchronously."])]
              else []).
Proof. destruct a; simpl; by rewrite ?app_nil_r. Qed.

Lemma extracted_frame a fp q b (σ : state HLP) :
  heap (extracted a fp q b σ) = heap σ ∧
  environ (extracted a fp q b σ) = environ σ ∧
  calls (extracted a fp q b σ) = calls σ ++ [Call a fp q b (environ σ)] ∧
  yielded (extracted a fp q b σ) = yielded σ ∧
  log (extracted a fp q b σ) = log (entered a σ).
Proof. by destruct a. Qed.

Lemma app_singleton_neq {A} (xs : list A) (x : A) : xs ++ [x] ≠ xs.
Proof.
  intros Heq. apply (f_equal length) in Heq.
  rewrite length_app in Heq. simpl in Heq. lia.
Qed.

(** ** Successful conversion *)

(** C1. An item with a [file_path], converted with a known backend while the
    extraction engine returns the fields [fields]: exactly one record is
    produced; it is [fields] with [file_path] set to the item's path and
    [metadata] set to the item, from which the [file_path] key has been
    removed and whose other fields are as they were. *)
Theorem convert_data_emits_structured_record
    (σ : state HLP) l q vs a fp b fields :
  obj σ l !! "file_path" = Some fp → fp ≠ VNone →
  vectorstore_mapping !! vs = Some b →
  engine a fp q b (environ σ) = inr fields →
  ∃ σ' record,
    convert_data l q vs a σ = (Ok (), σ') ∧
    yielded σ' = yielded σ ++ [record] ∧
    record = <["metadata" := VRef l]> (<["file_path" := fp]> fields) ∧
    record !! "file_path" = Some fp ∧
    record !! "metadata" = Some (VRef l) ∧
    (∀ k, k ≠ "file_path" → k ≠ "metadata" → record !! k = fields !! k) ∧
    obj σ' l = delete "file_path" (obj σ l) ∧
    obj σ' l !! "file_path" = None ∧
    (∀ k, k ≠ "file_path" → obj σ' l !! k = obj σ l !! k).
Proof.
  intros Hfp Hne Hvs Heng.
  eexists _, _. split; [by eapply convert_data_ok|].
  assert (Hobj : ∀ h, obj (add_yield (structured_record l fp fields)
                  (set_heap (<[l:=h]> (heap σ)) (extracted a fp q b σ))) l = h).
  { intros h. unfold obj. simpl. apply lookup_total_insert_eq. }
  repeat split.
  - by destruct a.
  - by rewrite lookup_insert_ne, lookup_insert_eq.
  - by rewrite lookup_insert_eq.
  - intros k Hk1 Hk2. by rewrite !lookup_insert_ne.
  - apply Hobj.
  - rewrite Hobj. apply lookup_delete_eq.
  - intros k Hk. rewrite Hobj. by apply lookup_delete_ne.
Qed.

(** ** Failures *)

(** C2. When the extraction engine raises an instance of [ValueError], of
    the class itself or of a subclass, a warning made of the item's file path
    and of the error is logged and no record is produced.  Any exception of
    the engine that is not a [ValueError], and the [KeyError] of an unknown
    backend, leaves [convert_data] as it was raised, with no record and no
    warning; and an item with a [file_path] is skipped only after a
    [ValueError] of the engine. *)
Theorem value_error_is_the_only_skip (σ : state HLP) l q vs a fp :
  obj σ l !! "file_path" = Some fp → fp ≠ VNone →
  (∀ b e,
     vectorstore_mapping !! vs = Some b →
     engine a fp q b (environ σ) = inl e →
     is_ValueError e = true →
     ∃ σ', convert_data l q vs a σ = (Ok (), σ') ∧
           yielded σ' = yielded σ ∧
           log σ' =
             log σ ++
             (if a then [(INFO, [Lit "Run conversion asynchronously."])]
              else []) ++
             [(WARNING,
               [Lit "File "; Fmt fp; Lit " has unsupported format: ";
                FmtExn e])]) ∧
  (∀ b e,
     vectorstore_mapping !! vs = Some b →
     engine a fp q b (environ σ) = inl e →
     is_ValueError e = false →
     ∃ σ', convert_data l q vs a σ = (Raise e, σ') ∧
           yielded σ' = yielded σ ∧
           Forall (λ x, x.1 ≠ WARNING) (drop (length (log σ)) (log σ'))) ∧
  (vectorstore_mapping !! vs = None →
     ∃ σ', convert_data l q vs a σ = (Raise (KeyError vs), σ') ∧
           yielded σ' = yielded σ ∧
           Forall (λ x, x.1 ≠ WARNING) (drop (length (log σ)) (log σ'))) ∧
  (∀ σ', convert_data l q vs a σ = (Ok (), σ') →
         yielded σ' = yielded σ →
         ∃ b e, vectorstore_mapping !! vs = Some b ∧
                engine a fp q b (environ σ) = inl e ∧
                is_ValueError e = true).
Proof.
  intros Hfp Hne.
  assert (Hquiet : Forall (λ x : level * list fpart, x.1 ≠ WARNING)
                     (drop (length (log σ)) (log (entered a σ)))).
  { destruct (entered_frame a σ) as (_ & _ & _ & _ & ->).
    rewrite drop_app_length. by destruct a; repeat constructor. }
  split; [|split; [|split]].
  - intros b e Hvs Heng HVE. eexists. split.
    + by eapply convert_data_unsupported.
    + destruct a; simpl; split; try done. by rewrite <- app_assoc.
  - intros b e Hvs Heng HVE. eexists. split.
    + by eapply convert_data_fatal.
    + destruct (extracted_frame a fp q b σ) as (_ & _ & _ & -> & ->).
      by split.
  - intros Hvs. eexists. split.
    + by eapply convert_data_unknown.
    + destruct (entered_frame a σ) as (_ & _ & _ & Hy & _). by split.
  - intros σ' Hrun Hy.
    destruct (vectorstore_mapping !! vs) as [b|] eqn:Hvs.
    + destruct (engine a fp q b (environ σ)) as [e|fields] eqn:Heng.
      * destruct (is_ValueError e) eqn:HVE.
        -- eauto.
        -- rewrite (convert_data_fatal σ l q vs a fp b e) in Hrun by done.
           done.
      * rewrite (convert_data_ok σ l q vs a fp b fields) in Hrun by done.
        injection Hrun as <-.
        assert (Hy' : yielded σ ++ [structured_record l fp fields] = yielded σ)
          by (by destruct a).
        by apply app_singleton_neq in Hy'.
    + rewrite (convert_data_unknown σ l q vs a fp) in Hrun by done. done.
Qed.

(** Every run of [convert_data] is one of the five cases. *)
Lemma convert_data_conversion (σ : state HLP) l q vs a :
  conversion σ l q vs a (convert_data l q vs a σ).1 (convert_data l q vs a σ).2.
Proof.
  destruct (obj σ l !! "file_path") as [fp|] eqn:Hfp;
    [destruct (decide (fp = VNone)) as [->|Hne]|].
  - rewrite convert_data_no_path by by rewrite Hfp.
    cbn [fst snd]. constructor. by rewrite Hfp.
  - destruct (vectorstore_mapping !! vs) as [b|] eqn:Hvs.
    + destruct (engine a fp q b (environ σ)) as [e|fields] eqn:Heng.
      * destruct (is_ValueError e) eqn:HVE.
        -- rewrite (convert_data_unsupported σ l q vs a fp b e) by done.
           cbn [fst snd]. by eapply conv_unsupported.
        -- rewrite (convert_data_fatal σ l q vs a fp b e) by done.
           cbn [fst snd]. by eapply conv_fatal.
      * rewrite (convert_data_ok σ l q vs a fp b fields) by done.
        cbn [fst snd]. by eapply conv_emitted.
    + rewrite (convert_data_unknown σ l q vs a fp) by done.
      cbn [fst snd]. by eapply conv_unknown.
  - rewrite convert_data_no_path by by rewrite Hfp.
    cbn [fst snd]. constructor. by rewrite Hfp.
Qed.

(** C3. An item whose [file_path] is missing, or is [None], is passed over:
    [convert_data] ends normally and the whole state (records produced, log,
    extraction calls, objects) is as before. *)
Theorem convert_data_skips_missing_file_path (σ : state HLP) l q vs a :
  obj σ l !! "file_path" = None ∨ obj σ l !! "file_path" = Some VNone →
  convert_data l q vs a σ = (Ok (), σ).
Proof.
  intros [Hfp|Hfp]; apply convert_data_no_path; by rewrite Hfp.
Qed.

(** C4. With a vectorstore name that [vectorstore_mapping] does not know,
    converting an item that has a [file_path] raises [KeyError]: nothing
    catches it, no record is produced and no warning logged, and no
    extraction call has been made. *)
Theorem unknown_vectorstore_is_fatal (σ : state HLP) l q vs a fp :
  vectorstore_mapping !! vs = None →
  obj σ l !! "file_path" = Some fp → fp ≠ VNone →
  ∃ σ', convert_data l q vs a σ = (Raise (KeyError vs), σ') ∧
        calls σ' = calls σ ∧
        yielded σ' = yielded σ ∧
        heap σ' = heap σ ∧
        Forall (λ x, x.1 ≠ WARNING) (drop (length (log σ)) (log σ')).
Proof.
  intros Hvs Hfp Hne. eexists. split; [by eapply convert_data_unknown|].
  destruct (entered_frame a σ) as (-> & _ & -> & -> & ->).
  repeat split. rewrite drop_app_length. by destruct a; repeat constructor.
Qed.

(** C10. While the extraction call for an item fails, the item is not
    touched: the objects are as before and the item still has its
    [file_path], which the warning of the [ValueError] case shows.  The item
    changes only in a run in which the extraction call returned. *)
Theorem failed_extraction_leaves_item (σ : state HLP) l q vs a fp :
  obj σ l !! "file_path" = Some fp → fp ≠ VNone →
  (∀ b e,
     vectorstore_mapping !! vs = Some b →
     engine a fp q b (environ σ) = inl e →
     ∃ r σ', convert_data l q vs a σ = (r, σ') ∧
       yielded σ' = yielded σ ∧
       heap σ' = heap σ ∧
       obj σ' l !! "file_path" = Some fp ∧
       (is_ValueError e = true →
          r = Ok () ∧
          last (log σ') =
            Some (WARNING,
                  [Lit "File "; Fmt fp; Lit " has unsupported format: ";
                   FmtExn e])) ∧
       (is_ValueError e = false → r = Raise e)) ∧
  (heap (convert_data l q vs a σ).2 ≠ heap σ →
     ∃ b fields, vectorstore_mapping !! vs = Some b ∧
                 engine a fp q b (environ σ) = inr fields).
Proof.
  intros Hfp Hne. split.
  - intros b e Hvs Heng. destruct (is_ValueError e) eqn:HVE.
    + eexists _, _. split; [by eapply convert_data_unsupported|].
      unfold obj in *.
      destruct a; simpl; (split_and!; [done|done|done| |done]);
        intros _; (split; [done|]); apply last_snoc.
    + eexists _, _. split; [by eapply convert_data_fatal|].
      unfold obj in *. by destruct a.
  - intros Hchg.
    destruct (convert_data_conversion σ l q vs a) as
      [ | fp' | fp' b fields Hfp' _ Hvs Heng | fp' b e | fp' b e ].
    + done.
    + by destruct a.
    + exists b, fields. by simplify_eq.
    + by destruct a.
    + by destruct a.
Qed.

(** C6. What a conversion does to its item: the fields other than
    [file_path] keep their values and no other object changes; a run that
    produces no record leaves all objects as they were; a run that produces a
    record removes [file_path] from the item, and the record's [metadata] is
    a reference to that very item. *)
Theorem convert_data_item_frame (σ : state HLP) l q vs a :
  (∀ k, k ≠ "file_path" →
        obj (convert_data l q vs a σ).2 l !! k = obj σ l !! k) ∧
  (∀ l', l' ≠ l → heap (convert_data l q vs a σ).2 !! l' = heap σ !! l') ∧
  (yielded (convert_data l q vs a σ).2 = yielded σ →
     heap (convert_data l q vs a σ).2 = heap σ) ∧
  (yielded (convert_data l q vs a σ).2 ≠ yielded σ →
     ∃ record,
       yielded (convert_data l q vs a σ).2 = yielded σ ++ [record] ∧
       record !! "metadata" = Some (VRef l) ∧
       obj (convert_data l q vs a σ).2 l = delete "file_path" (obj σ l)).
Proof.
  destruct (convert_data_conversion σ l q vs a) as
    [ | fp | fp b fields | fp b e | fp b e ].
  - by repeat split.
  - unfold obj. by destruct a.
  - unfold obj.
    destruct a; simpl; (split_and!;
      [ intros k Hk; rewrite lookup_total_insert_eq; by apply lookup_delete_ne
      | intros l' Hl'; by apply lookup_insert_ne
      | intros Heq; by apply app_singleton_neq in Heq
      | intros _; eexists; split_and!;
          [done | apply lookup_insert_eq | apply lookup_total_insert_eq] ]).
  - unfold obj. by destruct a.
  - unfold obj. by destruct a.
Qed.

(** C8. When, for an item with a [file_path], the asynchronous extraction
    function answers as the synchronous one does, [convert_data] with
    [run_async] set ends as it does without: same outcome, same records, same
    objects.  If the answer is a field mapping, both produce the one record
    built from it, the asynchronous run having made its extraction call
    before [convert_data] ends. *)
Theorem async_and_sync_emit_same_record (σ : state HLP) l q vs fp :
  obj σ l !! "file_path" = Some fp → fp ≠ VNone →
  (∀ b, vectorstore_mapping !! vs = Some b →
        aprocess_file_to_structured fp q b (environ σ) =
        process_file_to_structured fp q b (environ σ)) →
  (convert_data l q vs true σ).1 = (convert_data l q vs false σ).1 ∧
  yielded (convert_data l q vs true σ).2 =
    yielded (convert_data l q vs false σ).2 ∧
  heap (convert_data l q vs true σ).2 = heap (convert_data l q vs false σ).2 ∧
  environ (convert_data l q vs true σ).2 =
    environ (convert_data l q vs false σ).2 ∧
  (∀ b fields,
     vectorstore_mapping !! vs = Some b →
     process_file_to_structured fp q b (environ σ) = inr fields →
     yielded (convert_data l q vs true σ).2 =
       yielded σ ++ [<["metadata" := VRef l]> (<["file_path" := fp]> fields)] ∧
     yielded (convert_data l q vs false σ).2 =
       yielded σ ++ [<["metadata" := VRef l]> (<["file_path" := fp]> fields)] ∧
     calls (convert_data l q vs true σ).2 =
       calls σ ++ [Call true fp q b (environ σ)]).
Proof.
  intros Hfp Hne Hsame.
  destruct (vectorstore_mapping !! vs) as [b|] eqn:Hvs.
  - specialize (Hsame b eq_refl).
    destruct (process_file_to_structured fp q b (environ σ))
      as [e|fields] eqn:Hsync.
    + destruct (is_ValueError e) eqn:HVE.
      * rewrite (convert_data_unsupported σ l q vs true fp b e),
          (convert_data_unsupported σ l q vs false fp b e) by done.
        split_and!; try done. intros b' fields' [= <-] Hf. congruence.
      * rewrite (convert_data_fatal σ l q vs true fp b e),
          (convert_data_fatal σ l q vs false fp b e) by done.
        split_and!; try done. intros b' fields' [= <-] Hf. congruence.
    + rewrite (convert_data_ok σ l q vs true fp b fields),
        (convert_data_ok σ l q vs false fp b fields) by done.
      split_and!; try done. intros b' fields' [= <-] Hf.
      assert (fields' = fields) as -> by congruence. done.
  - rewrite (convert_data_unknown σ l q vs true fp),
      (convert_data_unknown σ l q vs false fp) by done.
    split_and!; try done.
Qed.

(** ** The resource configurator *)

Lemma resource_run (σ : state HLP) queries key vs tn a :
  unstructured_to_structured_resource queries key vs tn a σ =
    if bool_decide (key = "") then
      (Ok {| name := tn;
             write_disposition := "merge";
             merge_key := "metadata__data_hash";
             primary_key := "metadata__data_hash";
             bound_queries := default INVOICE_QUERIES queries;
             bound_vectorstore := vs;
             bound_run_async := a |}, σ)
    else if contains_nul key then
      (Raise (ValueError "embedded null byte"), σ)
    else
      (Ok {| name := tn;
             write_disposition := "merge";
             merge_key := "metadata__data_hash";
             primary_key := "metadata__data_hash";
             bound_queries := default INVOICE_QUERIES queries;
             bound_vectorstore := vs;
             bound_run_async := a |},
       set_environ (<["OPENAI_API_KEY" := key]> (environ σ)) σ).
Proof.
  unfold unstructured_to_structured_resource, mbind, mret, M_bind, M_ret,
    environ_set, truthy.
  destruct (bool_decide (key = "")); simpl; [by destruct queries|].
  destruct (contains_nul key); simpl; by destruct queries.
Qed.

(** A configuration that ends normally has bound its arguments and declared
    the hints. *)
Lemma resource_returned (σ : state HLP) queries key vs tn a r σ' :
  unstructured_to_structured_resource queries key vs tn a σ = (Ok r, σ') →
  r = {| name := tn;
         write_disposition := "merge";
         merge_key := "metadata__data_hash";
         primary_key := "metadata__data_hash";
         bound_queries := default INVOICE_QUERIES queries;
         bound_vectorstore := vs;
         bound_run_async := a |}.
Proof.
  rewrite resource_run.
  destruct (bool_decide (key = "")); [by intros [= <- _]|].
  destruct (contains_nul key); [done | by intros [= <- _]].
Qed.

(** It ends normally whenever the key has no NUL character. *)
Lemma resource_returns (σ : state HLP) queries key vs tn a :
  contains_nul key = false →
  ∃ r σ',
    unstructured_to_structured_resource queries key vs tn a σ = (Ok r, σ').
Proof.
  intros Hnul. rewrite resource_run, Hnul.
  destruct (bool_decide (key = "")); eauto.
Qed.

(** C5. With [queries] left out ([None]) the stage that configuration
    returns is bound to [INVOICE_QUERIES]; any mapping that is passed, the
    empty one too, is bound as it is.  Configuration returns a stage unless
    the API key has a NUL character. *)
Theorem default_queries_only_when_none (σ : state HLP) key vs tn a :
  (∀ r σ',
     unstructured_to_structured_resource None key vs tn a σ = (Ok r, σ') →
     bound_queries r = INVOICE_QUERIES ∧
     ∀ item, transform r item = convert_data item INVOICE_QUERIES vs a) ∧
  (∀ q r σ',
     unstructured_to_structured_resource (Some q) key vs tn a σ = (Ok r, σ') →
     bound_queries r = q ∧
     ∀ item, transform r item = convert_data item q vs a) ∧
  (contains_nul key = false →
   ∀ queries, ∃ r σ',
     unstructured_to_structured_resource queries key vs tn a σ = (Ok r, σ')).
Proof.
  split_and!.
  - intros r σ' Hrun. by rewrite (resource_returned _ _ _ _ _ _ _ _ Hrun).
  - intros q r σ' Hrun. by rewrite (resource_returned _ _ _ _ _ _ _ _ Hrun).
  - intros Hnul queries. by apply resource_returns.
Qed.

(** C7. Whatever the configuration, the resource it returns is declared with
    the name [table_name], the write disposition [merge], and, as merge key
    and as primary key, the column of the field [data_hash] of [metadata].
    Configuration returns a resource unless the API key has a NUL
    character. *)
Theorem resource_declares_merge_on_data_hash
    (σ : state HLP) queries key vs table_name a :
  (∀ r σ',
     unstructured_to_structured_resource queries key vs table_name a σ
       = (Ok r, σ') →
     name r = table_name ∧
     write_disposition r = "merge" ∧
     merge_key r = "metadata__data_hash" ∧
     primary_key r = "metadata__data_hash" ∧
     merge_key r = nested_column "metadata" "data_hash" ∧
     primary_key r = nested_column "metadata" "data_hash") ∧
  (contains_nul key = false →
   ∃ r σ',
     unstructured_to_structured_resource queries key vs table_name a σ
       = (Ok r, σ')).
Proof.
  split.
  - intros r σ' Hrun. by rewrite (resource_returned _ _ _ _ _ _ _ _ Hrun).
  - apply resource_returns.
Qed.

(** One conversion leaves the environment alone, and every extraction call it
    makes sees that environment. *)
Lemma convert_data_environ (σ : state HLP) l q vs a :
  environ (convert_data l q vs a σ).2 = environ σ ∧
  ∃ new, calls (convert_data l q vs a σ).2 = calls σ ++ new ∧
         Forall (λ c, call_environ c = environ σ) new.
Proof.
  destruct (convert_data_conversion σ l q vs a) as
    [ | fp | fp b fields | fp b e | fp b e ].
  - split; [done|]. exists []. by rewrite app_nil_r.
  - split; [by destruct a|]. exists []. rewrite app_nil_r. by destruct a.
  - split; [by destruct a|]. eexists [_]. split; [by destruct a|].
    by repeat constructor.
  - split; [by destruct a|]. eexists [_]. split; [by destruct a|].
    by repeat constructor.
  - split; [by destruct a|]. eexists [_]. split; [by destruct a|].
    by repeat constructor.
Qed.



End Properties.

(** * The stage on the sample installation *)

Local Open Scope positive_scope.
Local Open Scope list_scope.

Example render_unsupported_warning :
  render (unsupported_warning (VStr "notes.xyz")
            (ValueError "Unsupported file type: .xyz")).2
  = Some "File notes.xyz has unsupported format: Unsupported file type: .xyz".
Proof. reflexivity. Qed.

(** A batch whose first file is rejected and whose second converts: only the
    second gives a record. *)
Example skip_then_convert :
  ∃ r σ1,
    unstructured_to_structured_resource None "sk-test" "chroma" "invoices"
      false sample_state = (Ok r, σ1) ∧
    (run_items r [2; 1] σ1).1 = Ok () ∧
    yielded (run_items r [2; 1] σ1).2 =
      [<["metadata" := VRef 1]>
         (<["file_path" := VStr "invoice.pdf"]> sample_fields)].
Proof. eexists _, _. split; [by rewrite resource_run|]. by vm_compute. Qed.

(** C1 on the invoice item. *)
Lemma convert_data_emits_structured_record_witness :
  ∃ σ',
    convert_data 1 sample_queries "chroma" false sample_state = (Ok (), σ') ∧
    yielded σ' =
      [<["metadata" := VRef 1]>
         (<["file_path" := VStr "invoice.pdf"]> sample_fields)] ∧
    obj σ' 1 = delete "file_path" invoice_item.
Proof.
  destruct (convert_data_emits_structured_record sample_state 1 sample_queries
              "chroma" false (VStr "invoice.pdf") "Chroma" sample_fields)
    as (σ' & record & Hrun & Hy & -> & _ & _ & _ & Hobj & _);
    [reflexivity | discriminate | reflexivity | reflexivity |].
  exists σ'. split; [exact Hrun|]. split; [exact Hy | exact Hobj].
Defined.

(** C2 on the rejected file (skipped with a warning) and on the locked one
    (its error is raised). *)
Lemma value_error_is_the_only_skip_witness :
  (∃ σ',
     convert_data 2 sample_queries "chroma" true sample_state = (Ok (), σ') ∧
     yielded σ' = [] ∧
     log σ' =
       [(INFO, [Lit "Run conversion asynchronously."]);
        (WARNING,
         [Lit "File "; Fmt (VStr "notes.xyz"); Lit " has unsupported format: ";
          FmtExn (ValueError "Unsupported file type: .xyz")])]) ∧
  (∃ σ',
     convert_data 3 sample_queries "chroma" false sample_state =
       (Raise (OtherError "PermissionError" "locked.pdf"), σ') ∧
     yielded σ' = []).
Proof.
  split.
  - destruct (value_error_is_the_only_skip sample_state 2 sample_queries
                "chroma" true (VStr "notes.xyz")) as (Hskip & _);
      [reflexivity | discriminate |].
    exact (Hskip "Chroma" (ValueError "Unsupported file type: .xyz")
             eq_refl eq_refl eq_refl).
  - destruct (value_error_is_the_only_skip sample_state 3 sample_queries
                "chroma" false (VStr "locked.pdf")) as (_ & Hfatal & _);
      [reflexivity | discriminate |].
    destruct (Hfatal "Chroma" (OtherError "PermissionError" "locked.pdf")
                eq_refl eq_refl eq_refl) as (σ' & Hrun & Hy & _).
    exists σ'. split; [exact Hrun | exact Hy].
Defined.

(** C2 as stated fails for a [ValueError] that is no report of an
    unsupported format.  A text file, of a format the engine supports, whose
    bytes cannot be decoded: the [UnicodeDecodeError] is not passed on to the
    caller, and the file is logged as having an unsupported format. *)
Lemma decode_error_is_skipped_as_unsupported_format :
  is_unsupported_format decode_error = false ∧
  process_file_to_structured (Helpers := garbled_helpers)
    (VStr "report.txt") sample_queries "Chroma" ∅ = inl decode_error ∧
  (convert_data 1 sample_queries "chroma" false garbled_state).1 = Ok () ∧
  yielded (convert_data 1 sample_queries "chroma" false garbled_state).2
    = [] ∧
  log (convert_data 1 sample_queries "chroma" false garbled_state).2
    = [(WARNING,
        [Lit "File "; Fmt (VStr "report.txt");
         Lit " has unsupported format: "; FmtExn decode_error])].
Proof. split_and!; by vm_compute. Qed.

(** C3 on the item without [file_path] and on the one whose [file_path] is
    [None]. *)
Lemma convert_data_skips_missing_file_path_witness :
  convert_data 4 sample_queries "chroma" false sample_state
    = (Ok (), sample_state) ∧
  convert_data 5 sample_queries "chroma" true sample_state
    = (Ok (), sample_state).
Proof.
  split.
  - apply (convert_data_skips_missing_file_path sample_state 4).
    left. reflexivity.
  - apply (convert_data_skips_missing_file_path sample_state 5).
    right. reflexivity.
Defined.

(** C3 does not extend to the empty string.  An item whose [file_path] is
    the empty string is not passed over: the engine is called with the empty
    path, and the run ends in an error, a logged warning or a record, as the
    engine fails to open the file, rejects its format or answers. *)
Lemma empty_file_path_is_not_skipped :
  empty_path_item !! "file_path" = Some (VStr "") ∧
  (convert_data 6 sample_queries "chroma" false sample_state).1
    = Raise (OtherError "FileNotFoundError" "") ∧
  log (convert_data
         (HLP := empty_path_helpers (inl (ValueError "Unsupported file type: ")))
         6 sample_queries "chroma" false
         (initial_state _ sample_objects)).2
    = [(WARNING,
        [Lit "File "; Fmt (VStr ""); Lit " has unsupported format: ";
         FmtExn (ValueError "Unsupported file type: ")])] ∧
  yielded (convert_data (HLP := empty_path_helpers (inr sample_fields))
             6 sample_queries "chroma" false
             (initial_state _ sample_objects)).2
    = [<["metadata" := VRef 6]> (<["file_path" := VStr ""]> sample_fields)].
Proof. split_and!; by vm_compute. Qed.

(** C4 with a backend name that is not in the mapping. *)
Lemma unknown_vectorstore_is_fatal_witness :
  ∃ σ',
    convert_data 1 sample_queries "pinecone" false sample_state
      = (Raise (KeyError "pinecone"), σ') ∧
    calls σ' = [] ∧ yielded σ' = [] ∧ heap σ' = heap sample_state.
Proof.
  destruct (unknown_vectorstore_is_fatal sample_state 1 sample_queries
              "pinecone" false (VStr "invoice.pdf"))
    as (σ' & Hrun & Hcalls & Hy & Hheap & _);
    [reflexivity | reflexivity | discriminate |].
  exists σ'. split_and!; [exact Hrun | exact Hcalls | exact Hy | exact Hheap].
Defined.

(** C5 does not extend to the empty mapping: an empty [queries] is not
    replaced by the default one. *)
Lemma empty_queries_are_kept :
  ∃ r σ',
    unstructured_to_structured_resource (HLP := sample_helpers)
      (Some ∅) "sk-test" "chroma" "invoices" false sample_state = (Ok r, σ') ∧
    bound_queries r = ∅ ∧
    bound_queries r ≠ @INVOICE_QUERIES sample_helpers.
Proof.
  eexists _, _. split; [by rewrite resource_run|]. split; [reflexivity|].
  intros Heq. apply (f_equal (λ m : queries_t, m !! "invoice_amount")) in Heq.
  vm_compute in Heq. discriminate Heq.
Qed.

(** C6 fails on the success path.  A successful conversion changes its item:
    [file_path] is gone from it afterwards, and the record's [metadata] is
    the item itself. *)
Lemma conversion_removes_file_path_from_item :
  obj sample_state 1 !! "file_path" = Some (VStr "invoice.pdf") ∧
  obj (convert_data 1 sample_queries "chroma" false sample_state).2 1
    !! "file_path" = None ∧
  obj (convert_data 1 sample_queries "chroma" false sample_state).2 1
    ≠ obj sample_state 1 ∧
  (yielded (convert_data 1 sample_queries "chroma" false sample_state).2
     !! 0%nat) ≫= (λ record : dict, record !! "metadata") = Some (VRef 1).
Proof.
  split_and!; by vm_compute.
Qed.

(** C8 on the invoice item; the sample engine answers alike on both paths. *)
Lemma async_and_sync_emit_same_record_witness :
  (convert_data 1 sample_queries "chroma" true sample_state).1 =
    (convert_data 1 sample_queries "chroma" false sample_state).1 ∧
  yielded (convert_data 1 sample_queries "chroma" true sample_state).2 =
    [<["metadata" := VRef 1]>
       (<["file_path" := VStr "invoice.pdf"]> sample_fields)] ∧
  yielded (convert_data 1 sample_queries "chroma" false sample_state).2 =
    [<["metadata" := VRef 1]>
       (<["file_path" := VStr "invoice.pdf"]> sample_fields)].
Proof.
  destruct (async_and_sync_emit_same_record sample_state 1 sample_queries
              "chroma" (VStr "invoice.pdf"))
    as (Hres & _ & _ & _ & Hrec);
    [reflexivity | discriminate | reflexivity |].
  destruct (Hrec "Chroma" sample_fields eq_refl eq_refl) as (Ha & Hs & _).
  split_and!; [exact Hres | exact Ha | exact Hs].
Defined.



(** C10 on the rejected file and on the locked one. *)
Lemma failed_extraction_leaves_item_witness :
  (∃ σ',
     convert_data 2 sample_queries "chroma" false sample_state = (Ok (), σ') ∧
     heap σ' = heap sample_state ∧
     obj σ' 2 !! "file_path" = Some (VStr "notes.xyz")) ∧
  (∃ σ',
     convert_data 3 sample_queries "chroma" false sample_state =
       (Raise (OtherError "PermissionError" "locked.pdf"), σ') ∧
     heap σ' = heap sample_state ∧
     obj σ' 3 !! "file_path" = Some (VStr "locked.pdf")).
Proof.
  split.
  - destruct (failed_extraction_leaves_item sample_state 2 sample_queries
                "chroma" false (VStr "notes.xyz")) as (Hfail & _);
      [reflexivity | discriminate |].
    destruct (Hfail "Chroma" (ValueError "Unsupported file type: .xyz")
                eq_refl eq_refl)
      as (r & σ' & Hrun & _ & Hheap & Hfp & HVE & _).
    destruct (HVE eq_refl) as (-> & _).
    exists σ'. split_and!; [exact Hrun | exact Hheap | exact Hfp].
  - destruct (failed_extraction_leaves_item sample_state 3 sample_queries
                "chroma" false (VStr "locked.pdf")) as (Hfail & _);
      [reflexivity | discriminate |].
    destruct (Hfail "Chroma" (OtherError "PermissionError" "locked.pdf")
                eq_refl eq_refl)
      as (r & σ' & Hrun & _ & Hheap & Hfp & _ & Hother).
    rewrite (Hother eq_refl) in Hrun.
    exists σ'. split_and!; [exact Hrun | exact Hheap | exact Hfp].
Defined.

(** * Further properties of the two functions *)

Section Further.
Context `{HLP : Helpers}.
Local Open Scope nat_scope.

(** ** The resource configurator *)

(** Whatever a configuration does, it leaves the objects, the log, the
    extraction calls and the records alone. *)
Lemma resource_frame (σ : state HLP) queries key vs tn a :
  heap (unstructured_to_structured_resource queries key vs tn a σ).2 = heap σ ∧
  log (unstructured_to_structured_resource queries key vs tn a σ).2 = log σ ∧
  calls (unstructured_to_structured_resource queries key vs tn a σ).2
    = calls σ ∧
  yielded (unstructured_to_structured_resource queries key vs tn a σ).2
    = yielded σ.
Proof.
  rewrite resource_run.
  destruct (bool_decide (key = "")); [done|]. by destruct (contains_nul key).
Qed.

(** X1. With an empty API key, configuration leaves the whole state as it
    is: a value of [OPENAI_API_KEY] already present is kept. *)
Theorem configuration_without_key_changes_nothing
    (σ : state HLP) queries vs tn a :
  ∃ r, unstructured_to_structured_resource queries "" vs tn a σ = (Ok r, σ).
Proof. eexists. by rewrite resource_run. Qed.



(** ** One conversion *)

(** A conversion changes no object but its item. *)
Lemma convert_data_other_objects (σ : state HLP) l q vs a l' :
  l' ≠ l → obj (convert_data l q vs a σ).2 l' = obj σ l'.
Proof.
  intros Hl'.
  destruct (convert_data_conversion σ l q vs a) as
    [ | fp | fp b fields | fp b e | fp b e ]; unfold obj; try by destruct a.
  destruct a; simpl; by rewrite lookup_total_insert_ne.
Qed.

(** A conversion reads only its item and the environment: from two states
    that agree on both, it ends alike, produces the same records and leaves
    the item alike. *)
Lemma convert_data_local (σ σ' : state HLP) l q vs a :
  obj σ l = obj σ' l → environ σ = environ σ' →
  (convert_data l q vs a σ').1 = (convert_data l q vs a σ).1 ∧
  obj (convert_data l q vs a σ').2 l = obj (convert_data l q vs a σ).2 l ∧
  ∃ new,
    yielded (convert_data l q vs a σ).2 = yielded σ ++ new ∧
    yielded (convert_data l q vs a σ').2 = yielded σ' ++ new.
Proof.
  intros Hobj Henv.
  destruct (obj σ l !! "file_path") as [fp|] eqn:Hfp;
    [destruct (decide (fp = VNone)) as [->|Hne]|].
  - rewrite !convert_data_no_path by (by rewrite <- ?Hobj, Hfp).
    split_and!; [done|done|]. exists []. by rewrite !app_nil_r.
  - assert (Hfp' : obj σ' l !! "file_path" = Some fp) by by rewrite <- Hobj.
    destruct (vectorstore_mapping !! vs) as [b|] eqn:Hvs.
    + destruct (engine a fp q b (environ σ)) as [e|fields] eqn:Heng.
      * destruct (is_ValueError e) eqn:HVE.
        -- rewrite (convert_data_unsupported σ l q vs a fp b e),
             (convert_data_unsupported σ' l q vs a fp b e)
             by (by rewrite <- ?Henv).
           unfold obj in *. split_and!; [done|by destruct a|].
           exists []. rewrite !app_nil_r. by destruct a.
        -- rewrite (convert_data_fatal σ l q vs a fp b e),
             (convert_data_fatal σ' l q vs a fp b e)
             by (by rewrite <- ?Henv).
           unfold obj in *. split_and!; [done|by destruct a|].
           exists []. rewrite !app_nil_r. by destruct a.
      * rewrite (convert_data_ok σ l q vs a fp b fields),
          (convert_data_ok σ' l q vs a fp b fields)
          by (by rewrite <- ?Henv).
        unfold obj in *. split_and!; [done| |].
        -- destruct a; simpl; by rewrite !lookup_total_insert_eq, Hobj.
        -- exists [structured_record l fp fields]. by destruct a.
    + rewrite (convert_data_unknown σ l q vs a fp),
        (convert_data_unknown σ' l q vs a fp) by done.
      unfold obj in *. split_and!; [done|by destruct a|].
      exists []. rewrite !app_nil_r. by destruct a.
  - rewrite !convert_data_no_path by (by rewrite <- ?Hobj, Hfp).
    split_and!; [done|done|]. exists []. by rewrite !app_nil_r.
Qed.

(** X4. A conversion keeps the records and the extraction calls made so far
    and adds at most one of each; it adds a record only after an extraction
    call, and then ends normally. *)
Theorem convert_data_at_most_one_record (σ : state HLP) l q vs a :
  ∃ new_records new_calls,
    yielded (convert_data l q vs a σ).2 = yielded σ ++ new_records ∧
    calls (convert_data l q vs a σ).2 = calls σ ++ new_calls ∧
    length new_records ≤ 1 ∧ length new_calls ≤ 1 ∧
    length new_records ≤ length new_calls ∧
    (new_records ≠ [] → (convert_data l q vs a σ).1 = Ok ()).
Proof.
  destruct (convert_data_conversion σ l q vs a) as
    [ | fp | fp b fields | fp b e | fp b e ].
  - exists [], []. rewrite !app_nil_r. split_and!; simpl; try done; lia.
  - exists [], []. rewrite !app_nil_r.
    destruct a; split_and!; simpl; try done; lia.
  - exists [structured_record l fp fields], [Call a fp q b (environ σ)].
    destruct a; split_and!; simpl; try done; lia.
  - exists [], [Call a fp q b (environ σ)].
    rewrite !app_nil_r. destruct a; split_and!; simpl; try done; lia.
  - exists [], [Call a fp q b (environ σ)].
    rewrite !app_nil_r. destruct a; split_and!; simpl; try done; lia.
Qed.

(** X5. For an item with a [file_path] and a known backend, exactly one
    extraction call is made: to the asynchronous function if [run_async] is
    set and to the synchronous one otherwise, with the item's path, the given
    queries, the handle the name maps to, and under the environment as it is
    at that time. *)
Theorem convert_data_calls_selected_engine (σ : state HLP) l q vs a fp b :
  obj σ l !! "file_path" = Some fp → fp ≠ VNone →
  vectorstore_mapping !! vs = Some b →
  calls (convert_data l q vs a σ).2 = calls σ ++ [Call a fp q b (environ σ)].
Proof.
  intros Hfp Hne Hvs.
  destruct (engine a fp q b (environ σ)) as [e|fields] eqn:Heng.
  - destruct (is_ValueError e) eqn:HVE.
    + rewrite (convert_data_unsupported σ l q vs a fp b e) by done.
      by destruct a.
    + rewrite (convert_data_fatal σ l q vs a fp b e) by done.
      by destruct a.
  - rewrite (convert_data_ok σ l q vs a fp b fields) by done.
    by destruct a.
Qed.

(** X6. [convert_data] never lets a [ValueError] out.  When it raises, the
    run has produced no record, logged no warning and changed no object; in
    synchronous mode the exception is the [KeyError] of an unknown
    vectorstore name or what the extraction function raised. *)
Theorem convert_data_raises_cleanly (σ : state HLP) l q vs a e :
  (convert_data l q vs a σ).1 = Raise e →
  is_ValueError e = false ∧
  yielded (convert_data l q vs a σ).2 = yielded σ ∧
  heap (convert_data l q vs a σ).2 = heap σ ∧
  Forall (λ x, x.1 ≠ WARNING)
    (drop (length (log σ)) (log (convert_data l q vs a σ).2)) ∧
  (a = false →
   (e = KeyError vs ∧ vectorstore_mapping !! vs = None) ∨
   (∃ fp b, obj σ l !! "file_path" = Some fp ∧
            vectorstore_mapping !! vs = Some b ∧
            process_file_to_structured fp q b (environ σ) = inl e)).
Proof.
  assert (Hquiet : Forall (λ x : level * list fpart, x.1 ≠ WARNING)
                     (drop (length (log σ)) (log (entered a σ)))).
  { destruct (entered_frame a σ) as (_ & _ & _ & _ & ->).
    rewrite drop_app_length. by destruct a; repeat constructor. }
  destruct (convert_data_conversion σ l q vs a) as
    [ | fp | fp b fields | fp b e' | fp b e' Hfp Hne Hvs Heng HVE ];
    intros Hr; try done.
  - injection Hr as <-. split_and!; [done|by destruct a|by destruct a|done|].
    by left.
  - injection Hr as <-.
    destruct (extracted_frame a fp q b σ) as (-> & _ & _ & -> & ->).
    split_and!; try done. intros ->. right. eauto.
Qed.

(** X7. An item that has given a record is used up: converting the same
    object again, with whatever configuration, does nothing at all. *)
Theorem converted_item_is_consumed (σ : state HLP) l q vs a q' vs' a' :
  yielded (convert_data l q vs a σ).2 ≠ yielded σ →
  convert_data l q' vs' a' (convert_data l q vs a σ).2
    = (Ok (), (convert_data l q vs a σ).2).
Proof.
  destruct (convert_data_conversion σ l q vs a) as
    [ | fp | fp b fields | fp b e | fp b e ]; intros Hy;
    try (exfalso; apply Hy; by destruct a).
  apply convert_data_no_path. unfold obj. simpl.
  assert (Hh : heap (extracted a fp q b σ) = heap σ) by by destruct a.
  by rewrite lookup_total_insert_eq, lookup_delete_eq.
Qed.

(** X8. Two conversions of an item with a [file_path], one in each mode,
    whose extraction functions answer with mappings that have the same keys
    (the values may differ), give records with the same keys: those of the
    answer together with [file_path] and [metadata]. *)
Theorem records_of_both_modes_have_same_keys
    (σ : state HLP) l q vs fp b fields_sync fields_async :
  obj σ l !! "file_path" = Some fp → fp ≠ VNone →
  vectorstore_mapping !! vs = Some b →
  process_file_to_structured fp q b (environ σ) = inr fields_sync →
  aprocess_file_to_structured fp q b (environ σ) = inr fields_async →
  dom fields_sync = dom fields_async →
  ∃ record_sync record_async,
    yielded (convert_data l q vs false σ).2 = yielded σ ++ [record_sync] ∧
    yielded (convert_data l q vs true σ).2 = yielded σ ++ [record_async] ∧
    dom record_sync = {["file_path"; "metadata"]} ∪ dom fields_sync ∧
    dom record_async = dom record_sync.
Proof.
  intros Hfp Hne Hvs Hsync Hasync Hdom.
  exists (structured_record l fp fields_sync),
    (structured_record l fp fields_async).
  rewrite (convert_data_ok σ l q vs false fp b fields_sync),
    (convert_data_ok σ l q vs true fp b fields_async) by done.
  unfold structured_record. rewrite !dom_insert_L, Hdom.
  split_and!; [done | done | | done].
  apply set_eq. intros k. rewrite !elem_of_union, !elem_of_singleton. tauto.
Qed.

(** X9. A vectorstore name that the mapping does not know is no obstacle to
    configuration, which returns a stage unless the API key has a NUL
    character; the stage so configured still passes over the items without a
    [file_path], and raises [KeyError] on each item that has one. *)
Theorem unknown_vectorstore_is_deferred
    (σ : state HLP) queries key vs tn a l :
  vectorstore_mapping !! vs = None →
  (contains_nul key = false →
   ∃ r σ1,
     unstructured_to_structured_resource queries key vs tn a σ = (Ok r, σ1)) ∧
  (∀ r σ1,
     unstructured_to_structured_resource queries key vs tn a σ = (Ok r, σ1) →
     (default VNone (obj σ l !! "file_path") = VNone →
      transform r l σ1 = (Ok (), σ1)) ∧
     (default VNone (obj σ l !! "file_path") ≠ VNone →
      (transform r l σ1).1 = Raise (KeyError vs) ∧
      calls (transform r l σ1).2 = calls σ)).
Proof.
  intros Hvs. split; [apply resource_returns|].
  intros r σ1 Hrun.
  destruct (resource_frame σ queries key vs tn a) as (Hheap & _ & Hcalls & _).
  rewrite Hrun in Hheap, Hcalls. simpl in Hheap, Hcalls.
  assert (Hobj : obj σ1 l = obj σ l) by (unfold obj; by rewrite Hheap).
  rewrite (resource_returned _ _ _ _ _ _ _ _ Hrun).
  unfold transform. simpl. split.
  - intros Hnone. apply convert_data_no_path. by rewrite Hobj.
  - intros Hsome.
    destruct (obj σ l !! "file_path") as [fp|] eqn:Hfp; [|done].
    simpl in Hsome.
    rewrite (convert_data_unknown σ1 l (default INVOICE_QUERIES queries) vs a fp)
      by (by rewrite ?Hobj).
    split; [done|]. simpl. rewrite <- Hcalls. by destruct a.
Qed.

(** X10. Conversions of two distinct items do not interfere: converted after
    the first item, the second ends as it would have without it, adds the
    same records and is left in the same condition, and the first item is as
    its own conversion left it. *)
Theorem conversions_of_distinct_items_do_not_interfere
    (σ : state HLP) l1 l2 q1 vs1 a1 q2 vs2 a2 :
  l1 ≠ l2 →
  (convert_data l2 q2 vs2 a2 (convert_data l1 q1 vs1 a1 σ).2).1
    = (convert_data l2 q2 vs2 a2 σ).1 ∧
  obj (convert_data l2 q2 vs2 a2 (convert_data l1 q1 vs1 a1 σ).2).2 l2
    = obj (convert_data l2 q2 vs2 a2 σ).2 l2 ∧
  obj (convert_data l2 q2 vs2 a2 (convert_data l1 q1 vs1 a1 σ).2).2 l1
    = obj (convert_data l1 q1 vs1 a1 σ).2 l1 ∧
  ∃ new,
    yielded (convert_data l2 q2 vs2 a2 σ).2 = yielded σ ++ new ∧
    yielded (convert_data l2 q2 vs2 a2 (convert_data l1 q1 vs1 a1 σ).2).2
      = yielded (convert_data l1 q1 vs1 a1 σ).2 ++ new.
Proof.
  intros Hl.
  destruct (convert_data_local σ (convert_data l1 q1 vs1 a1 σ).2 l2 q2 vs2 a2)
    as (Hres & Hobj & new & Hy & Hy').
  - symmetry. by apply convert_data_other_objects.
  - symmetry. by destruct (convert_data_environ σ l1 q1 vs1 a1) as (-> & _).
  - split_and!; [done | done | by apply convert_data_other_objects |].
    by exists new.
Qed.

(** X11. What a conversion logs.  In synchronous mode: for an item with a
    [file_path] and a known vectorstore name whose extraction raises a
    [ValueError], exactly the one warning, with the item's path and that
    error; in every other case nothing.  In asynchronous mode: nothing for an
    item without a [file_path]; for every other item the line saying so comes
    first, before the vectorstore name is looked up. *)
Theorem convert_data_log (σ : state HLP) l q vs :
  log (convert_data l q vs false σ).2 =
    log σ ++
    match obj σ l !! "file_path" with
    | None | Some VNone => []
    | Some fp =>
        match vectorstore_mapping !! vs with
        | None => []
        | Some b =>
            match process_file_to_structured fp q b (environ σ) with
            | inl e =>
                if is_ValueError e then
                  [(WARNING,
                    [Lit "File "; Fmt fp; Lit " has unsupported format: ";
                     FmtExn e])]
                else []
            | inr _ => []
            end
        end
    end ∧
  (default VNone (obj σ l !! "file_path") = VNone →
   log (convert_data l q vs true σ).2 = log σ) ∧
  (default VNone (obj σ l !! "file_path") ≠ VNone →
   ∃ rest,
     log (convert_data l q vs true σ).2 =
       log σ ++ (INFO, [Lit "Run conversion asynchronously."]) :: rest).
Proof.
  split_and!.
  - destruct (obj σ l !! "file_path") as [fp|] eqn:Hfp;
      [destruct (decide (fp = VNone)) as [->|Hne]|].
    + rewrite convert_data_no_path by (by rewrite Hfp). by rewrite app_nil_r.
    + assert (Hshape :
        ∀ new : list (level * list fpart),
          match fp with VNone => [] | _ => new end = new) by by destruct fp.
      rewrite Hshape.
      destruct (vectorstore_mapping !! vs) as [b|] eqn:Hvs.
      * destruct (process_file_to_structured fp q b (environ σ))
          as [e|fields] eqn:Heng.
        -- destruct (is_ValueError e) eqn:HVE.
           ++ by rewrite (convert_data_unsupported σ l q vs false fp b e).
           ++ rewrite (convert_data_fatal σ l q vs false fp b e) by done.
              simpl. by rewrite app_nil_r.
        -- rewrite (convert_data_ok σ l q vs false fp b fields) by done.
           simpl. by rewrite app_nil_r.
      * rewrite (convert_data_unknown σ l q vs false fp) by done.
        simpl. by rewrite app_nil_r.
    + rewrite convert_data_no_path by (by rewrite Hfp). by rewrite app_nil_r.
  - intros Hnone. by rewrite convert_data_no_path.
  - intros Hsome.
    destruct (obj σ l !! "file_path") as [fp|] eqn:Hfp; [|done].
    simpl in Hsome.
    destruct (vectorstore_mapping !! vs) as [b|] eqn:Hvs.
    + destruct (aprocess_file_to_structured fp q b (environ σ))
        as [e|fields] eqn:Heng.
      * destruct (is_ValueError e) eqn:HVE.
        -- rewrite (convert_data_unsupported σ l q vs true fp b e) by done.
           eexists [_]. simpl. by rewrite <- app_assoc.
        -- rewrite (convert_data_fatal σ l q vs true fp b e) by done.
           by exists [].
      * rewrite (convert_data_ok σ l q vs true fp b fields) by done.
        by exists [].
    + rewrite (convert_data_unknown σ l q vs true fp) by done. by exists [].
Qed.

End Further.

(** * The further properties on the sample installation *)


(** X5 on the invoice item, in asynchronous mode. *)
Lemma convert_data_calls_selected_engine_witness :
  calls (convert_data 1 sample_queries "chroma" true sample_state).2
  = [@Call sample_helpers true (VStr "invoice.pdf") sample_queries "Chroma" ∅].
Proof.
  apply (convert_data_calls_selected_engine sample_state 1 sample_queries
           "chroma" true (VStr "invoice.pdf") "Chroma");
    [reflexivity | discriminate | reflexivity].
Defined.

(** X6 on the locked file. *)
Lemma convert_data_raises_cleanly_witness :
  is_ValueError (OtherError "PermissionError" "locked.pdf") = false ∧
  yielded (convert_data 3 sample_queries "chroma" false sample_state).2 = [] ∧
  heap (convert_data 3 sample_queries "chroma" false sample_state).2
    = heap sample_state.
Proof.
  destruct (convert_data_raises_cleanly sample_state 3 sample_queries
              "chroma" false (OtherError "PermissionError" "locked.pdf"))
    as (HVE & Hy & Hheap & _); [reflexivity|].
  split_and!; [exact HVE | exact Hy | exact Hheap].
Defined.

(** X7 on the invoice item, converted a second time in the other mode. *)
Lemma converted_item_is_consumed_witness :
  convert_data 1 sample_queries "weaviate" true
    (convert_data 1 sample_queries "chroma" false sample_state).2
  = (Ok (), (convert_data 1 sample_queries "chroma" false sample_state).2).
Proof.
  apply (converted_item_is_consumed sample_state 1 sample_queries "chroma"
           false sample_queries "weaviate" true).
  vm_compute. discriminate.
Defined.

(** X8 on the invoice item. *)
Lemma records_of_both_modes_have_same_keys_witness :
  ∃ record_sync record_async,
    yielded (convert_data 1 sample_queries "chroma" false sample_state).2
      = [record_sync] ∧
    yielded (convert_data 1 sample_queries "chroma" true sample_state).2
      = [record_async] ∧
    dom record_sync = {["file_path"; "metadata"]} ∪ dom sample_fields ∧
    dom record_async = dom record_sync.
Proof.
  apply (records_of_both_modes_have_same_keys sample_state 1 sample_queries
           "chroma" (VStr "invoice.pdf") "Chroma" sample_fields sample_fields);
    [reflexivity | discriminate | reflexivity | reflexivity | reflexivity
    | reflexivity].
Defined.

(** X9 with a name that is not in the mapping, on the item without
    [file_path] and on the invoice item. *)
Lemma unknown_vectorstore_is_deferred_witness :
  ∃ r σ1,
    unstructured_to_structured_resource None "sk-test" "pinecone" "invoices"
      false sample_state = (Ok r, σ1) ∧
    transform r 4 σ1 = (Ok (), σ1) ∧
    (transform r 1 σ1).1 = Raise (KeyError "pinecone").
Proof.
  destruct (unknown_vectorstore_is_deferred sample_state None "sk-test"
              "pinecone" "invoices" false 4) as (Hret & Hskip);
    [reflexivity|].
  destruct (Hret eq_refl) as (r & σ1 & Hrun).
  destruct (unknown_vectorstore_is_deferred sample_state None "sk-test"
              "pinecone" "invoices" false 1) as (_ & Hfail);
    [reflexivity|].
  exists r, σ1. split_and!.
  - exact Hrun.
  - apply (Hskip r σ1 Hrun). reflexivity.
  - apply (Hfail r σ1 Hrun). discriminate.
Defined.

(** X10 on the rejected file converted before the invoice. *)
Lemma conversions_of_distinct_items_do_not_interfere_witness :
  (convert_data 1 sample_queries "chroma" false
     (convert_data 2 sample_queries "chroma" true sample_state).2).1
  = (convert_data 1 sample_queries "chroma" false sample_state).1 ∧
  obj (convert_data 1 sample_queries "chroma" false
         (convert_data 2 sample_queries "chroma" true sample_state).2).2 1
  = obj (convert_data 1 sample_queries "chroma" false sample_state).2 1.
Proof.
  destruct (conversions_of_distinct_items_do_not_interfere sample_state 2 1
              sample_queries "chroma" true sample_queries "chroma" false)
    as (Hres & Hobj & _); [discriminate|].
  split; [exact Hres | exact Hobj].
Defined.
